(** * bedrock_prompt: the Ansible module [library/bedrock_prompt.py]

    A shallow embedding of [run_module] and of the Python operations it
    applies to JSON values, followed by the properties of the module's
    request construction, response extraction and exit reporting. *)

From Stdlib Require Import ZArith List Bool Ascii String Lia.
From Stdlib Require Import Numbers.DecimalString Numbers.DecimalPos Numbers.DecimalZ.
From Stdlib Require Import Floats.SpecFloat.
Import ListNotations.

Local Open Scope list_scope.
Local Open Scope string_scope.
Set Warnings "-register-all".

(** ** Characters that cannot be written inside a string literal *)

Definition LF : ascii := "010"%char.
Definition DQUOTE : ascii := "034"%char.
Definition BACKSLASH : ascii := "092"%char.

(** ** Python values produced by [json.loads] and accepted by [json.dumps]

    A [dict] keeps its insertion order, which [json.dumps] prints, so it is
    an association list; a Python [float] is an IEEE 754 binary64 number,
    given by its sign, mantissa and exponent. *)

Definition float : Type := spec_float.

(** [0.5], that is 2^52 * 2^-53 *)
Definition half : float := S754_finite false 4503599627370496 (-53).

Inductive json : Type :=
| JNull
| JBool (b : bool)
| JInt (n : Z)
| JFloat (f : float)
| JStr (s : string)
| JList (l : list json)
| JDict (d : list (string * json)).

(** [type(v).__name__], as it appears in the interpreter's error messages. *)
Definition type_name (v : json) : string :=
  match v with
  | JNull => "NoneType"
  | JBool _ => "bool"
  | JInt _ => "int"
  | JFloat _ => "float"
  | JStr _ => "str"
  | JList _ => "list"
  | JDict _ => "dict"
  end.

(** ** Exceptions *)

Inductive exn_class : Type :=
| IndexError
| TypeError
| AttributeError
| KeyError
| LibraryError (name : string).

(** An instance of a subclass of [Exception]; [exn_str e] is [str(e)].
    The messages of the interpreter's own errors are worded as CPython 3.12
    words them. *)
Record exn : Type := Exn { exn_cls : exn_class; exn_str : string }.

Definition res (A : Type) : Type := (exn + A)%type.

(** ** Operators on strings

    A [str] is a [string]: each [ascii] stands for one character, of code
    point below 256. *)

(** [x in s] for two strings: [x] occurs in [s] as a contiguous run. *)
Fixpoint str_in (x s : string) : bool :=
  prefix x s ||
  match s with
  | EmptyString => false
  | String _ s' => str_in x s'
  end.

(** What "s contains the substring x" means. *)
Definition contains (x s : string) : Prop :=
  exists pre post, s = pre ++ x ++ post.

(** ** Operators on JSON values *)

Fixpoint dict_lookup (k : string) (d : list (string * json)) : option json :=
  match d with
  | [] => None
  | (k', v) :: d' => if String.eqb k k' then Some v else dict_lookup k d'
  end.

Definition is_str (k : string) (v : json) : bool :=
  match v with
  | JStr s => String.eqb k s
  | _ => false
  end.

(** [k in v] for a string [k]. *)
Definition py_in (k : string) (v : json) : res bool :=
  match v with
  | JDict d =>
      match dict_lookup k d with
      | Some _ => inr true
      | None => inr false
      end
  | JList l => inr (existsb (is_str k) l)
  | JStr s => inr (str_in k s)
  | _ => inl (Exn TypeError
                  ("argument of type '" ++ type_name v ++ "' is not iterable"))
  end.

(** [v[k]] for a string [k]. *)
Definition getitem_str (v : json) (k : string) : res json :=
  match v with
  | JDict d =>
      match dict_lookup k d with
      | Some x => inr x
      | None => inl (Exn KeyError ("'" ++ k ++ "'"))
      end
  | JList _ =>
      inl (Exn TypeError "list indices must be integers or slices, not str")
  | JStr _ =>
      inl (Exn TypeError "string indices must be integers, not 'str'")
  | _ => inl (Exn TypeError
                  ("'" ++ type_name v ++ "' object is not subscriptable"))
  end.

(** [v[0]]. The keys of a dict read from JSON are strings, so [0] is never
    one of them. *)
Definition getitem_0 (v : json) : res json :=
  match v with
  | JList [] => inl (Exn IndexError "list index out of range")
  | JList (x :: _) => inr x
  | JStr EmptyString => inl (Exn IndexError "string index out of range")
  | JStr (String c _) => inr (JStr (String c EmptyString))
  | JDict _ => inl (Exn KeyError "0")
  | _ => inl (Exn TypeError
                  ("'" ++ type_name v ++ "' object is not subscriptable"))
  end.

(** [v.get(k, default)]: only a dict has the method. *)
Definition py_get (v : json) (k : string) (default : json) : res json :=
  match v with
  | JDict d =>
      match dict_lookup k d with
      | Some x => inr x
      | None => inr default
      end
  | _ => inl (Exn AttributeError
                  ("'" ++ type_name v ++ "' object has no attribute 'get'"))
  end.

(** ** [json.dumps]

    The encoder with its defaults ([ensure_ascii=True], separators [", "] and
    [": "], or [","] and [": "] with an [indent]).  How a float is printed is
    the interpreter's [float.__repr__]; it is taken from the library record
    below. *)

Definition hex_digit (n : nat) : ascii :=
  match n with
  | 0 => "0" | 1 => "1" | 2 => "2" | 3 => "3" | 4 => "4" | 5 => "5"
  | 6 => "6" | 7 => "7" | 8 => "8" | 9 => "9" | 10 => "a" | 11 => "b"
  | 12 => "c" | 13 => "d" | 14 => "e" | _ => "f"
  end%char.

Definition escape_char (c : ascii) : string :=
  if Ascii.eqb c DQUOTE then String BACKSLASH (String DQUOTE "")
  else if Ascii.eqb c BACKSLASH then String BACKSLASH (String BACKSLASH "")
  else if Ascii.eqb c LF then String BACKSLASH "n"
  else if Ascii.eqb c "013"%char then String BACKSLASH "r"
  else if Ascii.eqb c "009"%char then String BACKSLASH "t"
  else if Ascii.eqb c "008"%char then String BACKSLASH "b"
  else if Ascii.eqb c "012"%char then String BACKSLASH "f"
  else
    let n := nat_of_ascii c in
    if (32 <=? n)%nat && (n <=? 126)%nat then String c ""
    else String BACKSLASH
           ("u00" ++ String (hex_digit (n / 16)) (String (hex_digit (n mod 16)) "")).

Fixpoint escape_str (s : string) : string :=
  match s with
  | EmptyString => ""
  | String c s' => escape_char c ++ escape_str s'
  end.

Definition encode_str (s : string) : string :=
  String DQUOTE (escape_str s ++ String DQUOTE "").

Fixpoint spaces (n : nat) : string :=
  match n with
  | O => ""
  | S n' => String " " (spaces n')
  end.

Definition newline_indent (indent : option nat) (level : nat) : string :=
  match indent with
  | None => ""
  | Some k => String LF (spaces (k * level))
  end.

Definition item_separator (indent : option nat) (level : nat) : string :=
  match indent with
  | None => ", "
  | Some _ => "," ++ newline_indent indent level
  end.

Section Encoder.
Variable float_repr : float -> string.
Variable indent : option nat.

Fixpoint encode (level : nat) (v : json) : string :=
  match v with
  | JNull => "null"
  | JBool true => "true"
  | JBool false => "false"
  | JInt n => NilZero.string_of_int (Z.to_int n)
  | JFloat f => float_repr f
  | JStr s => encode_str s
  | JList [] => "[]"
  | JList (x :: xs) =>
      "[" ++ newline_indent indent (S level) ++ encode (S level) x
      ++ (fix items (l : list json) : string :=
            match l with
            | [] => ""
            | y :: l' =>
                item_separator indent (S level) ++ encode (S level) y
                ++ items l'
            end) xs
      ++ newline_indent indent level ++ "]"
  | JDict [] => "{}"
  | JDict ((k, x) :: d) =>
      "{" ++ newline_indent indent (S level)
      ++ encode_str k ++ ": " ++ encode (S level) x
      ++ (fix items (l : list (string * json)) : string :=
            match l with
            | [] => ""
            | (k', y) :: l' =>
                item_separator indent (S level)
                ++ encode_str k' ++ ": " ++ encode (S level) y
                ++ items l'
            end) d
      ++ newline_indent indent level ++ "}"
  end.
End Encoder.

(** ** The libraries behind the module *)

Record invoke_args : Type := InvokeArgs {
  body : string;
  modelId : string;
  accept : string;
  contentType : string
}.

Record Library : Type := {
  (** [float.__repr__], with [json]'s spelling of the non-finite values *)
  float_repr : float -> string;
  (** [boto3.client(service_name='bedrock-runtime', region_name=region)]:
      [Some e] when building the client raises [e] *)
  boto3_client : string -> option exn;
  (** [bedrock.invoke_model(...)['body'].read()] of the client of a region *)
  invoke_model : string -> invoke_args -> res string;
  (** [json.loads] *)
  json_loads : string -> res json
}.

Definition json_dumps (lib : Library) (indent : option nat) (v : json) : string :=
  encode (float_repr lib) indent 0 v.

(** ** The module's state and control flow

    [result] is the dict of line 64, which the branches update in place;
    the calls made to the remote service are recorded in order.
    [exit_json] and [fail_json] end the process by raising [SystemExit],
    which is not an [Exception] and so passes through [except Exception]. *)

Record result : Type := Result { changed : bool; bedrock_response : json }.

Record state : Type := State {
  st_result : result;
  st_calls : list (string * invoke_args)
}.

Inductive exit : Type :=
| ExitJson (r : result)
| FailJson (msg : string) (r : result).

Inductive signal (A : Type) : Type :=
| Ret (a : A)
| Raise (e : exn)
| SysExit (x : exit).

Arguments Ret {A} a.
Arguments Raise {A} e.
Arguments SysExit {A} x.

Definition M (A : Type) : Type := state -> signal A * state.

Definition ret {A} (a : A) : M A := fun st => (Ret a, st).

Definition bind {A B} (m : M A) (k : A -> M B) : M B :=
  fun st =>
    match m st with
    | (Ret a, st') => k a st'
    | (Raise e, st') => (Raise e, st')
    | (SysExit x, st') => (SysExit x, st')
    end.

Notation "x <- m ;; k" := (bind m (fun x => k))
  (at level 61, m at next level, right associativity).
Notation "m ;;; k" := (bind m (fun _ => k))
  (at level 61, right associativity).

Definition lift {A} (r : res A) : M A :=
  fun st =>
    match r with
    | inl e => (Raise e, st)
    | inr a => (Ret a, st)
    end.

(** [try: m except Exception as e: handler e] *)
Definition try_except {A} (m : M A) (handler : exn -> M A) : M A :=
  fun st =>
    match m st with
    | (Raise e, st') => handler e st'
    | other => other
    end.

(** [result['bedrock_response'] = v] *)
Definition set_bedrock_response (v : json) : M unit :=
  fun st =>
    (Ret tt, State (Result (changed (st_result st)) v) (st_calls st)).

(** [module.exit_json( **result )] *)
Definition exit_json {A} : M A :=
  fun st => (SysExit (ExitJson (st_result st)), st).

(** [module.fail_json(msg=msg, **result)] *)
Definition fail_json {A} (msg : string) : M A :=
  fun st => (SysExit (FailJson msg (st_result st)), st).

(** ** The module's parameters, after the framework has checked them *)

Record params : Type := Params {
  prompt : string;
  model_id : string;
  region : string;
  max_tokens : Z
}.

(** ** [run_module] *)

Section Module.
Variable lib : Library.

(** line 83 *)
Definition make_client (region : string) : M unit :=
  match boto3_client lib region with
  | Some e => lift (inl e)
  | None => ret tt
  end.

(** lines 95-101 and 112-118: the call is made, then its body is parsed *)
Definition call_invoke_model (region : string) (args : invoke_args) : M string :=
  fun st =>
    lift (invoke_model lib region args)
         (State (st_result st) (st_calls st ++ [(region, args)])).

(** line 86 *)
Definition uses_messages_api (model_id : string) : bool :=
  str_in "claude-3-sonnet" model_id || str_in "claude-3-5-sonnet" model_id.

(** lines 88-94 *)
Definition messages_request (prompt : string) (max_tokens : Z) : json :=
  JDict [("anthropic_version", JStr "bedrock-2023-05-31");
         ("max_tokens", JInt max_tokens);
         ("messages",
          JList [JDict [("role", JStr "user"); ("content", JStr prompt)]])].

Definition human_turn : string := String LF (String LF "Human:").
Definition assistant_turn : string := String LF (String LF "Assistant:").

(** lines 105-111 *)
Definition completion_request (prompt : string) (max_tokens : Z) : json :=
  JDict [("prompt", JStr (human_turn ++ " " ++ prompt ++ assistant_turn));
         ("max_tokens_to_sample", JInt max_tokens);
         ("temperature", JFloat half);
         ("top_p", JInt 1);
         ("stop_sequences", JList [JStr human_turn])].

(** line 102 *)
Definition extract_messages (response_body : json) : res json :=
  match py_get response_body "content" (JList [JDict []]) with
  | inl e => inl e
  | inr content =>
      match getitem_0 content with
      | inl e => inl e
      | inr first => py_get first "text" (JStr "No response from Bedrock")
      end
  end.

(** line 120: [and] evaluates its right operand only when the left is true *)
Definition has_output_text (response_body : json) : res bool :=
  match py_in "output" response_body with
  | inl e => inl e
  | inr false => inr false
  | inr true =>
      match getitem_str response_body "output" with
      | inl e => inl e
      | inr output => py_in "text" output
      end
  end.

(** lines 119-125 *)
Definition extract_completion (response_body : json) : res json :=
  match py_in "completion" response_body with
  | inl e => inl e
  | inr false =>
      match has_output_text response_body with
      | inl e => inl e
      | inr true =>
          match getitem_str response_body "output" with
          | inl e => inl e
          | inr output => getitem_str output "text"
          end
      | inr false =>
          inr (JStr ("No valid response found. Raw response: "
                     ++ json_dumps lib (Some 2) response_body))
      end
  | inr true => getitem_str response_body "completion"
  end.

Definition application_json : string := "application/json".

(** lines 82-127, the body of the [try] *)
Definition try_body (p : params) : M unit :=
  make_client (region p) ;;;
  (if uses_messages_api (model_id p) then
     let body := json_dumps lib None (messages_request (prompt p) (max_tokens p)) in
     response <- call_invoke_model (region p)
                   (InvokeArgs body (model_id p) application_json application_json) ;;
     response_body <- lift (json_loads lib response) ;;
     text <- lift (extract_messages response_body) ;;
     set_bedrock_response text
   else
     let body := json_dumps lib None (completion_request (prompt p) (max_tokens p)) in
     response <- call_invoke_model (region p)
                   (InvokeArgs body (model_id p) application_json application_json) ;;
     response_body <- lift (json_loads lib response) ;;
     text <- lift (extract_completion response_body) ;;
     set_bedrock_response text) ;;;
  exit_json.

(** lines 64-67 *)
Definition initial_result : result := Result false (JStr "").

Definition initial_state : state := State initial_result [].

(** lines 56-129 *)
Definition run_module (p : params) (check_mode : bool) : M unit :=
  (if check_mode then exit_json else ret tt) ;;;
  try_except (try_body p) (fun e => fail_json (exn_str e)).

End Module.

(** lines 131-132 *)
Definition main (lib : Library) (p : params) (check_mode : bool) : M unit :=
  run_module lib p check_mode.

(** The arguments of the one remote call, and the extraction applied to its
    parsed answer, as the branch taken for [model_id p] has them. *)
Definition request_of (lib : Library) (p : params) : invoke_args :=
  InvokeArgs
    (json_dumps lib None
       (if uses_messages_api (model_id p)
        then messages_request (prompt p) (max_tokens p)
        else completion_request (prompt p) (max_tokens p)))
    (model_id p) application_json application_json.

Definition extract_of (lib : Library) (p : params) (response_body : json) : res json :=
  if uses_messages_api (model_id p)
  then extract_messages response_body
  else extract_completion lib response_body.

(** The process never ends with a failure report. *)
Definition exits_successfully (lib : Library) (p : params) : Prop :=
  exists r st, run_module lib p false initial_state = (SysExit (ExitJson r), st).

(** ** A library double

    Every call to the service is answered with [reply], and every parse
    gives [parsed]; the client is always built. *)
Definition repr_half (f : float) : string :=
  match f with
  | S754_finite false 4503599627370496%positive (-53)%Z => "0.5"
  | _ => "nan"
  end.

Definition canned (reply : res string) (parsed : res json) : Library :=
  {| float_repr := repr_half;
     boto3_client := fun _ => None;
     invoke_model := fun _ _ => reply;
     json_loads := fun _ => parsed |}.

(** The service answers with the JSON text of [v], which parses to [v]. *)
Definition answering (v : json) : Library :=
  canned (inr (encode repr_half None 0 v)) (inr v).

Definition sonnet_params : params :=
  Params "What are the key benefits of cloud computing?"
         "anthropic.claude-3-sonnet-20240229-v1:0" "us-west-2" 1000.

Definition legacy_params : params :=
  Params "Hello" "anthropic.claude-v2" "us-west-2" 300.

(** The fallback text of line 102 and the diagnostic text of line 123. *)
Definition no_response : json := JStr "No response from Bedrock".

Definition no_valid_response (lib : Library) (response_body : json) : json :=
  JStr ("No valid response found. Raw response: "
        ++ json_dumps lib (Some 2) response_body).

(** The test ['text' in response_body['output']] of line 120 is defined and
    false: "output" is missing, or is an object without "text", or is a
    string or a list in which "text" does not occur. *)
Definition output_lacks_text (d : list (string * json)) : Prop :=
  match dict_lookup "output" d with
  | None => True
  | Some (JDict o) => dict_lookup "text" o = None
  | Some (JStr s) => str_in "text" s = false
  | Some (JList l) => existsb (is_str "text") l = false
  | Some _ => False
  end.

(** An error of the service, as the SDK raises it. *)
Definition access_denied : exn :=
  Exn (LibraryError "ClientError")
      "An error occurred (AccessDeniedException) when calling the InvokeModel operation".

(** The test of line 120 raises, or is true on a value that cannot then be
    indexed by "text": "output" is a number, a boolean or [None], or a
    string or a list in which "text" occurs. *)
Definition output_breaks (d : list (string * json)) : Prop :=
  match dict_lookup "output" d with
  | None => False
  | Some (JDict _) => False
  | Some (JStr s) => str_in "text" s = true
  | Some (JList l) => existsb (is_str "text") l = true
  | Some _ => True
  end.

(** The answers [extract_messages] can read. *)
Definition messages_shape (response_body : json) : Prop :=
  exists d,
    response_body = JDict d /\
    (dict_lookup "content" d = None \/
     exists first rest,
       dict_lookup "content" d = Some (JList (JDict first :: rest))).

Definition is_dict (v : json) : bool :=
  match v with
  | JDict _ => true
  | _ => false
  end.

(** A character between space and tilde, and a string of such characters:
    what a text holds that is ASCII and on one line. *)
Definition printable (c : ascii) : bool :=
  let n := nat_of_ascii c in (32 <=? n)%nat && (n <=? 126)%nat.

Fixpoint all_printable (s : string) : bool :=
  match s with
  | EmptyString => true
  | String c s' => printable c && all_printable s'
  end.



(** * Properties *)

(** ** Substring test *)

Lemma prefix_app (x s : string) :
  prefix x s = true <-> exists post, s = x ++ post.
Proof.
  revert s; induction x as [|c x IH]; intros s; simpl.
  - split; [intros _; exists s; reflexivity | intros _; now destruct s].
  - destruct s as [|c' s]; simpl.
    + split; [discriminate | intros [post H]; discriminate].
    + destruct (ascii_dec c c') as [->|Hne].
      * rewrite IH. split; intros [post H]; exists post.
        -- now rewrite H.
        -- now inversion H.
      * split; [discriminate | intros [post H]; congruence].
Qed.

Lemma str_in_contains (x s : string) :
  str_in x s = true <-> contains x s.
Proof.
  unfold contains. split.
  - induction s as [|c s IH]; cbn [str_in]; rewrite orb_true_iff.
    + intros [H|H]; [|discriminate].
      apply prefix_app in H. destruct H as [post H]. now exists "", post.
    + intros [H|H].
      * apply prefix_app in H. destruct H as [post H]. now exists "", post.
      * destruct (IH H) as (pre & post & E).
        exists (String c pre), post. simpl. now rewrite E.
  - intros (pre & post & ->).
    induction pre as [|c pre IH].
    + assert (P : prefix x (x ++ post) = true)
        by (apply prefix_app; now exists post).
      change ("" ++ x ++ post) with (x ++ post).
      destruct (x ++ post); cbn [str_in]; now rewrite P.
    + change (String c pre ++ x ++ post) with (String c (pre ++ x ++ post)).
      cbn [str_in]. rewrite IH. apply orb_true_r.
Qed.

Lemma str_in_not_contains (x s : string) :
  str_in x s = false <-> ~ contains x s.
Proof.
  rewrite <- str_in_contains. destruct (str_in x s); split; easy.
Qed.

Lemma uses_messages_api_iff (m : string) :
  uses_messages_api m = true <->
  contains "claude-3-sonnet" m \/ contains "claude-3-5-sonnet" m.
Proof.
  unfold uses_messages_api.
  now rewrite orb_true_iff, !str_in_contains.
Qed.

(** ** Running the module *)

Ltac unfold_run :=
  unfold run_module, try_except, try_body, bind, make_client,
    call_invoke_model, set_bedrock_response, exit_json, fail_json, lift, ret,
    initial_state, initial_result; cbn [st_result st_calls fst snd app].

Ltac case_library :=
  repeat match goal with
         | |- context [boto3_client ?l ?r] =>
             destruct (boto3_client l r) eqn:?
         | |- context [invoke_model ?l ?r ?a] =>
             destruct (invoke_model l r a) eqn:?
         | |- context [json_loads ?l ?s] =>
             destruct (json_loads l s) eqn:?
         | |- context [extract_messages ?b] =>
             destruct (extract_messages b) eqn:?
         | |- context [extract_completion ?l ?b] =>
             destruct (extract_completion l b) eqn:?
         end; cbn [st_result st_calls fst snd app changed bedrock_response].

(** In check mode nothing of the [try] runs. *)
Lemma run_check_mode (lib : Library) (p : params) (st : state) :
  run_module lib p true st = (SysExit (ExitJson (st_result st)), st).
Proof. reflexivity. Qed.

(** Outside check mode the run is the [try] with its handler. *)
Lemma run_no_check (lib : Library) (p : params) (st : state) :
  run_module lib p false st =
  try_except (try_body lib p) (fun e => fail_json (exn_str e)) st.
Proof. reflexivity. Qed.

(** The four places of the [try] where an exception can arise, and the run
    that follows from each; the last line is the run without exception. *)
Lemma run_cases (lib : Library) (p : params) :
  run_module lib p false initial_state =
  match boto3_client lib (region p) with
  | Some e => (SysExit (FailJson (exn_str e) initial_result), initial_state)
  | None =>
      let called := State initial_result [(region p, request_of lib p)] in
      match invoke_model lib (region p) (request_of lib p) with
      | inl e => (SysExit (FailJson (exn_str e) initial_result), called)
      | inr raw =>
          match json_loads lib raw with
          | inl e => (SysExit (FailJson (exn_str e) initial_result), called)
          | inr response_body =>
              match extract_of lib p response_body with
              | inl e => (SysExit (FailJson (exn_str e) initial_result), called)
              | inr text =>
                  (SysExit (ExitJson (Result false text)),
                   State (Result false text) [(region p, request_of lib p)])
              end
          end
      end
  end.
Proof.
  unfold request_of, extract_of. unfold_run.
  destruct (uses_messages_api (model_id p)); unfold_run; case_library;
    reflexivity.
Qed.

(** ** Request construction *)

(** C1.  When [model_id] contains "claude-3-sonnet" or "claude-3-5-sonnet",
    whatever else it holds, the first branch is taken for every prompt and
    [max_tokens]: the answer is read by the messages extraction, and once
    the client is built the one call made carries [json.dumps] of
    [{"anthropic_version": "bedrock-2023-05-31", "max_tokens": max_tokens,
      "messages": [{"role": "user", "content": prompt}]}]. *)
Theorem messages_request_built (lib : Library) (p : params) :
  contains "claude-3-sonnet" (model_id p) \/
  contains "claude-3-5-sonnet" (model_id p) ->
  uses_messages_api (model_id p) = true /\
  (forall response_body,
      extract_of lib p response_body = extract_messages response_body) /\
  (boto3_client lib (region p) = None ->
   st_calls (snd (run_module lib p false initial_state)) =
   [(region p,
     InvokeArgs
       (json_dumps lib None
          (JDict [("anthropic_version", JStr "bedrock-2023-05-31");
                  ("max_tokens", JInt (max_tokens p));
                  ("messages",
                   JList [JDict [("role", JStr "user");
                                 ("content", JStr (prompt p))]])]))
       (model_id p) "application/json" "application/json")]).
Proof.
  intros H. apply uses_messages_api_iff in H.
  split; [exact H|]. split.
  - intros rb. unfold extract_of. now rewrite H.
  - intros Hc. rewrite run_cases, Hc. unfold request_of, extract_of.
    rewrite H. cbv zeta. case_library; reflexivity.
Qed.

Lemma messages_request_built_witness :
  st_calls (snd (run_module (canned (inr "{}") (inr (JDict []))) sonnet_params
                   false initial_state)) =
  [("us-west-2",
    InvokeArgs
      (json_dumps (canned (inr "{}") (inr (JDict []))) None
         (JDict [("anthropic_version", JStr "bedrock-2023-05-31");
                 ("max_tokens", JInt 1000);
                 ("messages",
                  JList [JDict [("role", JStr "user");
                                ("content",
                                 JStr "What are the key benefits of cloud computing?")]])]))
      "anthropic.claude-3-sonnet-20240229-v1:0"
      "application/json" "application/json")].
Proof.
  apply (messages_request_built (canned (inr "{}") (inr (JDict []))) sonnet_params).
  - left. apply str_in_contains. vm_compute. reflexivity.
  - reflexivity.
Defined.

(** C2.  When [model_id] contains neither substring, the second branch is
    taken for every prompt and [max_tokens]: the answer is read by the
    completion extraction, and once the client is built the one call made
    carries [json.dumps] of the dict whose "prompt" is
    "\n\nHuman: " + prompt + "\n\nAssistant:", "max_tokens_to_sample" is
    [max_tokens], "temperature" is 0.5, "top_p" is 1 and "stop_sequences"
    is ["\n\nHuman:"]. *)
Theorem completion_request_built (lib : Library) (p : params) :
  ~ contains "claude-3-sonnet" (model_id p) ->
  ~ contains "claude-3-5-sonnet" (model_id p) ->
  uses_messages_api (model_id p) = false /\
  (forall response_body,
      extract_of lib p response_body = extract_completion lib response_body) /\
  (boto3_client lib (region p) = None ->
   st_calls (snd (run_module lib p false initial_state)) =
   [(region p,
     InvokeArgs
       (json_dumps lib None
          (JDict [("prompt",
                   JStr (String LF (String LF "Human: ") ++ prompt p
                         ++ String LF (String LF "Assistant:")));
                  ("max_tokens_to_sample", JInt (max_tokens p));
                  ("temperature", JFloat half);
                  ("top_p", JInt 1);
                  ("stop_sequences",
                   JList [JStr (String LF (String LF "Human:"))])]))
       (model_id p) "application/json" "application/json")]).
Proof.
  intros H1 H2.
  apply str_in_not_contains in H1. apply str_in_not_contains in H2.
  assert (H : uses_messages_api (model_id p) = false)
    by (unfold uses_messages_api; now rewrite H1, H2).
  split; [exact H|]. split.
  - intros rb. unfold extract_of. now rewrite H.
  - intros Hc. rewrite run_cases, Hc. unfold request_of, extract_of.
    rewrite H. cbv zeta. case_library; reflexivity.
Qed.

Lemma completion_request_built_witness :
  uses_messages_api (model_id legacy_params) = false /\
  st_calls (snd (run_module (canned (inr "{}") (inr (JDict []))) legacy_params
                   false initial_state)) =
  [("us-west-2",
    InvokeArgs
      (json_dumps (canned (inr "{}") (inr (JDict []))) None
         (JDict [("prompt",
                  JStr (String LF (String LF "Human: ") ++ "Hello"
                        ++ String LF (String LF "Assistant:")));
                 ("max_tokens_to_sample", JInt 300);
                 ("temperature", JFloat half);
                 ("top_p", JInt 1);
                 ("stop_sequences",
                  JList [JStr (String LF (String LF "Human:"))])]))
      "anthropic.claude-v2" "application/json" "application/json")].
Proof.
  destruct (completion_request_built
              (canned (inr "{}") (inr (JDict []))) legacy_params)
    as (H1 & _ & H3).
  - apply str_in_not_contains. vm_compute. reflexivity.
  - apply str_in_not_contains. vm_compute. reflexivity.
  - split; [exact H1 | apply H3; reflexivity].
Defined.

(** ** Response extraction, messages branch *)

Lemma extract_messages_absent (d : list (string * json)) :
  dict_lookup "content" d = None ->
  extract_messages (JDict d) = inr no_response.
Proof.
  intros H. unfold extract_messages. cbn [py_get]. rewrite H. reflexivity.
Qed.

Lemma extract_messages_first (d first : list (string * json)) (rest : list json) :
  dict_lookup "content" d = Some (JList (JDict first :: rest)) ->
  extract_messages (JDict d) =
  inr match dict_lookup "text" first with
      | Some text => text
      | None => no_response
      end.
Proof.
  intros H. unfold extract_messages. cbn [py_get]. rewrite H.
  cbn [getitem_0 py_get]. now destruct (dict_lookup "text" first).
Qed.

Example extract_messages_hello :
  extract_messages (JDict [("content", JList [JDict [("text", JStr "hello")]])])
  = inr (JStr "hello").
Proof. reflexivity. Qed.

(** C3.  The response [{"content": []}]: [.get('content', [{}])] returns the
    empty list that is present, [[0]] raises [IndexError], and the run ends
    in [fail_json] instead of the fallback text. *)
Theorem messages_empty_content_fails :
  extract_messages (JDict [("content", JList [])])
  = inl (Exn IndexError "list index out of range") /\
  fst (run_module (answering (JDict [("content", JList [])])) sonnet_params
         false initial_state)
  = SysExit (FailJson "list index out of range" (Result false (JStr ""))).
Proof. split; reflexivity. Qed.

(** C10.  A "content" list whose first element is an object without "text"
    gives the fallback text, the same result as a response without
    "content". *)
Theorem messages_first_without_text
  (d first : list (string * json)) (rest : list json) :
  dict_lookup "content" d = Some (JList (JDict first :: rest)) ->
  dict_lookup "text" first = None ->
  extract_messages (JDict d) = inr (JStr "No response from Bedrock") /\
  (forall d', dict_lookup "content" d' = None ->
              extract_messages (JDict d') = extract_messages (JDict d)).
Proof.
  intros Hc Ht.
  assert (E : extract_messages (JDict d) = inr no_response)
    by (rewrite (extract_messages_first _ _ _ Hc), Ht; reflexivity).
  split; [exact E|].
  intros d' Hd'. now rewrite E, extract_messages_absent.
Qed.

Lemma messages_first_without_text_witness :
  extract_messages (JDict [("content", JList [JDict []])])
  = inr (JStr "No response from Bedrock").
Proof.
  destruct (messages_first_without_text
              [("content", JList [JDict []])] [] []) as [H _].
  - reflexivity.
  - reflexivity.
  - exact H.
Defined.

(** C4, as stated, fails: a "content" list holding a string instead of an
    object is a malformed response, and the run reports failure. *)
Lemma malformed_messages_response_fails :
  fst (run_module (answering (JDict [("content", JList [JStr "hello"])]))
         sonnet_params false initial_state)
  = SysExit (FailJson "'str' object has no attribute 'get'"
               (Result false (JStr ""))) /\
  ~ exits_successfully (answering (JDict [("content", JList [JStr "hello"])]))
      sonnet_params.
Proof.
  split; [reflexivity|].
  intros (r & st & H). vm_compute in H. discriminate H.
Qed.

(** C4, amended.  In the messages branch, when the answer parses to an
    object without "content", or to one whose "content" is a list starting
    with an object, the run ends in [exit_json]; where "content" or the
    first element's "text" is missing, the text reported is the fallback. *)
Theorem messages_fallback_exits
  (lib : Library) (p : params) (raw : string) (d : list (string * json)) :
  uses_messages_api (model_id p) = true ->
  boto3_client lib (region p) = None ->
  invoke_model lib (region p) (request_of lib p) = inr raw ->
  json_loads lib raw = inr (JDict d) ->
  dict_lookup "content" d = None \/
  (exists first rest, dict_lookup "content" d = Some (JList (JDict first :: rest))) ->
  exits_successfully lib p /\
  exists text,
    fst (run_module lib p false initial_state)
    = SysExit (ExitJson (Result false text)) /\
    (dict_lookup "content" d = None -> text = JStr "No response from Bedrock") /\
    (forall first rest,
        dict_lookup "content" d = Some (JList (JDict first :: rest)) ->
        dict_lookup "text" first = None ->
        text = JStr "No response from Bedrock").
Proof.
  intros Hm Hc Hi Hl Hshape.
  assert (Hx : exists text,
             extract_messages (JDict d) = inr text /\
             (dict_lookup "content" d = None -> text = no_response) /\
             (forall first rest,
                 dict_lookup "content" d = Some (JList (JDict first :: rest)) ->
                 dict_lookup "text" first = None -> text = no_response)).
  { destruct Hshape as [Ha | (first & rest & Hf)].
    - exists no_response. split; [now apply extract_messages_absent|].
      split; [reflexivity|]. intros f r Hf. congruence.
    - eexists. split; [apply (extract_messages_first _ _ _ Hf)|].
      split; [congruence|].
      intros f r Hf' Ht. rewrite Hf in Hf'. injection Hf' as -> ->.
      now rewrite Ht. }
  destruct Hx as (text & Hx & Habs & Hfst).
  assert (R : run_module lib p false initial_state =
              (SysExit (ExitJson (Result false text)),
               State (Result false text) [(region p, request_of lib p)])).
  { rewrite run_cases, Hc. cbv zeta. rewrite Hi, Hl.
    unfold extract_of. rewrite Hm, Hx. reflexivity. }
  split.
  - eexists _, _. exact R.
  - exists text. rewrite R. auto.
Qed.

Lemma messages_fallback_exits_witness :
  exits_successfully (answering (JDict [("id", JStr "msg_01")])) sonnet_params.
Proof.
  apply (messages_fallback_exits
           (answering (JDict [("id", JStr "msg_01")])) sonnet_params
           (encode repr_half None 0 (JDict [("id", JStr "msg_01")]))
           [("id", JStr "msg_01")]).
  - reflexivity.
  - reflexivity.
  - reflexivity.
  - reflexivity.
  - left. reflexivity.
Defined.

(** ** Response extraction, completion branch *)

(** C5, as stated, fails: [{"output": 5}] has no "completion" and no text
    under "output", yet the result is not the diagnostic string: the test
    ['text' in 5] raises [TypeError] and the run reports failure. *)
Lemma completion_output_number_fails :
  dict_lookup "completion" [("output", JInt 5)] = None /\
  extract_completion (answering (JDict [("output", JInt 5)]))
    (JDict [("output", JInt 5)])
  = inl (Exn TypeError "argument of type 'int' is not iterable") /\
  fst (run_module (answering (JDict [("output", JInt 5)])) legacy_params
         false initial_state)
  = SysExit (FailJson "argument of type 'int' is not iterable"
               (Result false (JStr ""))).
Proof. repeat split; reflexivity. Qed.

(** C5, amended.  For a response object: the value of "completion" is
    returned when the field is present; otherwise, when "output" is an
    object with a "text" field, that value is returned; otherwise, when
    "output" is missing, or an object without "text", or a string or list
    in which "text" does not occur, the result is
    "No valid response found. Raw response: " followed by the response
    printed with indent 2.  So [{"completion": "hi"}] gives "hi",
    [{"output": {"text": "hi2"}}] gives "hi2" and [{}] gives the
    diagnostic text ending in [{}]. *)
Theorem completion_precedence (lib : Library) (d : list (string * json)) :
  (forall v, dict_lookup "completion" d = Some v ->
             extract_completion lib (JDict d) = inr v) /\
  (forall o v, dict_lookup "completion" d = None ->
               dict_lookup "output" d = Some (JDict o) ->
               dict_lookup "text" o = Some v ->
               extract_completion lib (JDict d) = inr v) /\
  (dict_lookup "completion" d = None ->
   output_lacks_text d ->
   extract_completion lib (JDict d)
   = inr (JStr ("No valid response found. Raw response: "
                ++ json_dumps lib (Some 2) (JDict d)))) /\
  extract_completion lib (JDict [("completion", JStr "hi")]) = inr (JStr "hi") /\
  extract_completion lib (JDict [("output", JDict [("text", JStr "hi2")])])
  = inr (JStr "hi2") /\
  extract_completion lib (JDict [])
  = inr (JStr "No valid response found. Raw response: {}").
Proof.
  repeat split; try reflexivity.
  - intros v H. unfold extract_completion.
    cbn [py_in getitem_str]. now rewrite H.
  - intros o v Hc Ho Ht. unfold extract_completion, has_output_text.
    cbn [py_in getitem_str]. rewrite Hc, Ho.
    cbn [py_in getitem_str]. now rewrite Ht.
  - intros Hc Hl. unfold extract_completion, has_output_text.
    cbn [py_in getitem_str]. rewrite Hc. unfold output_lacks_text in Hl.
    destruct (dict_lookup "output" d) as [[ | | | |s|l|o]|];
      try contradiction; cbn [py_in getitem_str]; rewrite ?Hl; reflexivity.
Qed.

Lemma completion_precedence_witness :
  extract_completion (answering JNull)
    (JDict [("completion", JStr "first"); ("output", JDict [("text", JStr "second")])])
  = inr (JStr "first") /\
  extract_completion (answering JNull)
    (JDict [("stop", JNull); ("output", JDict [("text", JStr "second")])])
  = inr (JStr "second") /\
  extract_completion (answering JNull) (JDict [("output", JStr "none")])
  = inr (no_valid_response (answering JNull) (JDict [("output", JStr "none")])).
Proof.
  split; [|split].
  - apply (completion_precedence (answering JNull)
             [("completion", JStr "first");
              ("output", JDict [("text", JStr "second")])]).
    reflexivity.
  - apply (proj1 (proj2 (completion_precedence (answering JNull)
             [("stop", JNull); ("output", JDict [("text", JStr "second")])]))
             [("text", JStr "second")]); reflexivity.
  - apply (proj1 (proj2 (proj2 (completion_precedence (answering JNull)
             [("output", JStr "none")])))); reflexivity.
Defined.

(** ** Exit reporting *)

(** C7.  In check mode, for every library and parameters, the run ends in
    [exit_json] with the dict of line 64 as it was built, [changed] false
    and an empty [bedrock_response], and no call to the service is made. *)
Theorem check_mode_returns_default (lib : Library) (p : params) :
  run_module lib p true initial_state
  = (SysExit (ExitJson (Result false (JStr ""))),
     State (Result false (JStr "")) []).
Proof. reflexivity. Qed.

(** C6.  An exception [e] raised while the client is built, by the call to
    the service, by the parsing of its answer or by the extraction ends the
    run in [fail_json] with [msg = str(e)]; the run never ends with an
    exception in flight, and the service is called at most once. *)
Theorem exceptions_reported (lib : Library) (p : params) (e : exn) :
  boto3_client lib (region p) = Some e \/
  (boto3_client lib (region p) = None /\
   (invoke_model lib (region p) (request_of lib p) = inl e \/
    exists raw,
      invoke_model lib (region p) (request_of lib p) = inr raw /\
      (json_loads lib raw = inl e \/
       exists response_body,
         json_loads lib raw = inr response_body /\
         extract_of lib p response_body = inl e))) ->
  fst (run_module lib p false initial_state)
  = SysExit (FailJson (exn_str e) (Result false (JStr ""))) /\
  (forall check e' st, run_module lib p check initial_state <> (Raise e', st)) /\
  (List.length (st_calls (snd (run_module lib p false initial_state))) <= 1)%nat.
Proof.
  intros H. split; [|split].
  - rewrite run_cases.
    destruct H as [H | (Hc & [H | (raw & Hi & [H | (rb & Hl & H)])])].
    + now rewrite H.
    + now rewrite Hc, H.
    + now rewrite Hc, Hi, H.
    + now rewrite Hc, Hi, Hl, H.
  - intros [|] e' st; [discriminate|].
    rewrite run_cases. cbv zeta.
    destruct (boto3_client lib (region p)); [discriminate|].
    destruct (invoke_model lib (region p) (request_of lib p)); [discriminate|].
    destruct (json_loads lib s); [discriminate|].
    destruct (extract_of lib p j); discriminate.
  - rewrite run_cases. cbv zeta.
    destruct (boto3_client lib (region p)); [cbn; lia|].
    destruct (invoke_model lib (region p) (request_of lib p)); [cbn; lia|].
    destruct (json_loads lib s); [cbn; lia|].
    destruct (extract_of lib p j); cbn; lia.
Qed.

Lemma exceptions_reported_witness :
  fst (run_module (canned (inl access_denied) (inr JNull)) sonnet_params
         false initial_state)
  = SysExit (FailJson (exn_str access_denied) (Result false (JStr ""))).
Proof.
  apply (exceptions_reported (canned (inl access_denied) (inr JNull))
           sonnet_params access_denied).
  right. split; [reflexivity|]. left. reflexivity.
Defined.

(** C8.  A run outside check mode that ends in [exit_json] reports
    [changed] false and, as [bedrock_response], what the extraction of the
    branch taken returns on the parsed answer of the one call made. *)
Theorem success_reports_extracted_text
  (lib : Library) (p : params) (r : result) (st : state) :
  run_module lib p false initial_state = (SysExit (ExitJson r), st) ->
  changed r = false /\
  exists raw response_body,
    invoke_model lib (region p) (request_of lib p) = inr raw /\
    json_loads lib raw = inr response_body /\
    extract_of lib p response_body = inr (bedrock_response r) /\
    st_calls st = [(region p, request_of lib p)].
Proof.
  rewrite run_cases. cbv zeta.
  destruct (boto3_client lib (region p)); [discriminate|].
  destruct (invoke_model lib (region p) (request_of lib p)) as [|raw];
    [discriminate|].
  destruct (json_loads lib raw) as [|rb] eqn:Hl; [discriminate|].
  destruct (extract_of lib p rb) as [|text] eqn:Hx; [discriminate|].
  intros H. injection H as <- <-. split; [reflexivity|].
  exists raw, rb. auto.
Qed.

Lemma success_reports_extracted_text_witness :
  exists raw response_body,
    invoke_model
      (answering (JDict [("content", JList [JDict [("text", JStr "hello")]])]))
      "us-west-2"
      (request_of
         (answering (JDict [("content", JList [JDict [("text", JStr "hello")]])]))
         sonnet_params) = inr raw /\
    json_loads
      (answering (JDict [("content", JList [JDict [("text", JStr "hello")]])]))
      raw = inr response_body /\
    extract_of
      (answering (JDict [("content", JList [JDict [("text", JStr "hello")]])]))
      sonnet_params response_body = inr (JStr "hello").
Proof.
  destruct (success_reports_extracted_text
              (answering (JDict [("content", JList [JDict [("text", JStr "hello")]])]))
              sonnet_params
              (Result false (JStr "hello"))
              (State (Result false (JStr "hello"))
                 [("us-west-2",
                   request_of
                     (answering
                        (JDict [("content", JList [JDict [("text", JStr "hello")]])]))
                     sonnet_params)]))
    as (_ & raw & rb & H1 & H2 & H3 & _).
  - reflexivity.
  - exists raw, rb. auto.
Defined.

(** C9.  Every run that ends in [fail_json] reports, next to the message,
    the dict of line 64 unchanged: [changed] false and an empty
    [bedrock_response]. *)
Theorem failure_reports_initial_result
  (lib : Library) (p : params) (check : bool)
  (msg : string) (r : result) (st : state) :
  run_module lib p check initial_state = (SysExit (FailJson msg r), st) ->
  r = Result false (JStr "") /\ st_result st = Result false (JStr "").
Proof.
  destruct check; [discriminate|].
  rewrite run_cases. cbv zeta.
  destruct (boto3_client lib (region p)).
  { intros H. injection H as _ <- <-. split; reflexivity. }
  destruct (invoke_model lib (region p) (request_of lib p)) as [|raw].
  { intros H. injection H as _ <- <-. split; reflexivity. }
  destruct (json_loads lib raw) as [|rb].
  { intros H. injection H as _ <- <-. split; reflexivity. }
  destruct (extract_of lib p rb).
  { intros H. injection H as _ <- <-. split; reflexivity. }
  discriminate.
Qed.

Lemma failure_reports_initial_result_witness :
  Result false (JStr "") = Result false (JStr "") /\
  st_result
    (State (Result false (JStr ""))
       [("us-west-2",
         request_of (answering (JDict [("content", JList [])])) sonnet_params)])
  = Result false (JStr "").
Proof.
  apply (failure_reports_initial_result
           (answering (JDict [("content", JList [])])) sonnet_params false
           "list index out of range").
  reflexivity.
Defined.

(** * Further properties of [run_module] *)

(** ** Routing *)

Lemma append_assoc (a b c : string) : (a ++ b) ++ c = a ++ b ++ c.
Proof. induction a as [|x a IH]; simpl; [reflexivity | now rewrite IH]. Qed.

Lemma contains_embedded (x m pre post : string) :
  contains x m -> contains x (pre ++ m ++ post).
Proof.
  intros (a & b & ->). exists (pre ++ a), (b ++ post).
  now rewrite !append_assoc.
Qed.

(** X1.  The test of line 86 looks at no position in particular: an
    identifier routed to the messages branch is still routed there with
    any text before and after it (a region prefix, an ARN around it). *)
Theorem messages_routing_embedded (m pre post : string) :
  uses_messages_api m = true ->
  uses_messages_api (pre ++ m ++ post) = true.
Proof.
  rewrite !uses_messages_api_iff.
  intros [H|H]; [left|right]; now apply contains_embedded.
Qed.

Lemma messages_routing_embedded_witness :
  uses_messages_api
    ("arn:aws:bedrock:us-west-2::foundation-model/"
     ++ "anthropic.claude-3-5-sonnet-20240620-v1:0" ++ "") = true.
Proof.
  apply (messages_routing_embedded
           "anthropic.claude-3-5-sonnet-20240620-v1:0"
           "arn:aws:bedrock:us-west-2::foundation-model/" "").
  vm_compute. reflexivity.
Defined.

(** ** Calls to the service *)

(** X2.  The calls a run makes are known from the client alone: none when
    building the client raises, and otherwise exactly one, made before the
    answer is parsed or read, so it is there whether the run then succeeds
    or fails. *)
Theorem calls_made (lib : Library) (p : params) :
  st_calls (snd (run_module lib p false initial_state))
  = match boto3_client lib (region p) with
    | Some _ => []
    | None => [(region p, request_of lib p)]
    end.
Proof.
  rewrite run_cases. cbv zeta.
  destruct (boto3_client lib (region p)); [reflexivity|].
  destruct (invoke_model lib (region p) (request_of lib p)) as [|raw];
    [reflexivity|].
  destruct (json_loads lib raw) as [|rb]; [reflexivity|].
  destruct (extract_of lib p rb); reflexivity.
Qed.

(** X3.  Whatever the run, check mode or not, a call that is made goes to
    the client of [region], names [model_id] unchanged as [modelId], and
    asks and announces "application/json". *)
Theorem calls_carry_model_id
  (lib : Library) (p : params) (check : bool)
  (target : string) (args : invoke_args) :
  In (target, args) (st_calls (snd (run_module lib p check initial_state))) ->
  target = region p /\
  modelId args = model_id p /\
  accept args = "application/json" /\
  contentType args = "application/json".
Proof.
  destruct check; [intros []|].
  rewrite run_cases. cbv zeta.
  destruct (boto3_client lib (region p)); [intros []|].
  destruct (invoke_model lib (region p) (request_of lib p)) as [|raw].
  { intros [H|[]]. injection H as <- <-. repeat split. }
  destruct (json_loads lib raw) as [|rb].
  { intros [H|[]]. injection H as <- <-. repeat split. }
  destruct (extract_of lib p rb);
    intros [H|[]]; injection H as <- <-; repeat split.
Qed.

Lemma calls_carry_model_id_witness :
  "us-west-2" = region legacy_params /\
  modelId (request_of (answering (JDict [])) legacy_params)
  = model_id legacy_params /\
  accept (request_of (answering (JDict [])) legacy_params)
  = "application/json" /\
  contentType (request_of (answering (JDict [])) legacy_params)
  = "application/json".
Proof.
  apply (calls_carry_model_id (answering (JDict [])) legacy_params false).
  left. reflexivity.
Defined.

(** ** Reading the answer, messages branch *)

Lemma py_get_dict (v : json) (k : string) (default x : json) :
  py_get v k default = inr x -> exists d, v = JDict d.
Proof. destruct v; try discriminate. intros _. now eexists. Qed.

(** X4.  [extract_messages] returns a value exactly on the answers that
    are an object whose "content" is missing or is a list starting with an
    object; on every other answer (not an object, "content" of another
    type, an empty list, a first element that is not an object) line 102
    raises. *)
Theorem extract_messages_succeeds_iff (response_body : json) :
  (exists text, extract_messages response_body = inr text) <->
  messages_shape response_body.
Proof.
  unfold messages_shape. split.
  - intros [text H]. unfold extract_messages in H.
    destruct response_body as [ | | | | | |d]; try discriminate H.
    exists d. split; [reflexivity|]. cbn [py_get] in H.
    destruct (dict_lookup "content" d) as [content|]; [right | now left].
    destruct content as [ | | | |s|l|c]; try discriminate H.
    + destruct s; discriminate H.
    + destruct l as [|first rest]; [discriminate H|].
      cbn [getitem_0] in H. apply py_get_dict in H.
      destruct H as [f ->]. now exists f, rest.
  - intros (d & -> & [H | (first & rest & H)]).
    + eexists. now apply extract_messages_absent.
    + eexists. apply (extract_messages_first _ _ _ H).
Qed.

(** X5.  Only the first element of "content" is read: two answers whose
    "content" lists start with the same element give the same result,
    whatever else the lists and the objects hold. *)
Theorem extract_messages_reads_first
  (d d' : list (string * json)) (first : json) (rest rest' : list json) :
  dict_lookup "content" d = Some (JList (first :: rest)) ->
  dict_lookup "content" d' = Some (JList (first :: rest')) ->
  extract_messages (JDict d) = extract_messages (JDict d').
Proof.
  intros H H'. unfold extract_messages. cbn [py_get].
  rewrite H, H'. reflexivity.
Qed.

Lemma extract_messages_reads_first_witness :
  extract_messages
    (JDict [("content", JList [JDict [("text", JStr "one")];
                               JDict [("text", JStr "two")]])])
  = extract_messages
      (JDict [("id", JStr "msg_01");
              ("content", JList [JDict [("text", JStr "one")]])]).
Proof.
  apply (extract_messages_reads_first _ _ (JDict [("text", JStr "one")])
           [JDict [("text", JStr "two")]] []); reflexivity.
Defined.

(** ** Reading the answer, completion branch *)

(** X6.  On an answer that is an object, lines 119-125 raise exactly when
    "completion" is missing and "output" is a number, a boolean, [None],
    or a string or list in which "text" occurs. *)
Theorem extract_completion_raises_iff
  (lib : Library) (d : list (string * json)) :
  (exists e, extract_completion lib (JDict d) = inl e) <->
  dict_lookup "completion" d = None /\ output_breaks d.
Proof.
  unfold extract_completion, has_output_text, output_breaks.
  cbn [py_in getitem_str].
  destruct (dict_lookup "completion" d) as [c|].
  { split; [intros [e H]; discriminate H | intros [H _]; discriminate H]. }
  destruct (dict_lookup "output" d) as [[ | | | |s|l|o]|];
    cbn [py_in getitem_str type_name].
  1-4: split; [intros _; now split | intros _; now eexists].
  - destruct (str_in "text" s).
    + split; [intros _; now split | intros _; now eexists].
    + split; [intros [e H]; discriminate H | intros [_ H]; discriminate H].
  - destruct (existsb (is_str "text") l).
    + split; [intros _; now split | intros _; now eexists].
    + split; [intros [e H]; discriminate H | intros [_ H]; discriminate H].
  - destruct (dict_lookup "text" o);
      (split; [intros [e H]; discriminate H | intros [_ []]]).
  - split; [intros [e H]; discriminate H | intros [_ []]].
Qed.

(** X7.  An answer that is not an object is never taken for a completion:
    when lines 119-125 return on it, what they return is the diagnostic
    text with the answer printed in it. *)
Theorem extract_completion_non_object
  (lib : Library) (response_body text : json) :
  is_dict response_body = false ->
  extract_completion lib response_body = inr text ->
  text = JStr ("No valid response found. Raw response: "
               ++ json_dumps lib (Some 2) response_body).
Proof.
  intros Hd. unfold extract_completion, has_output_text.
  destruct response_body as [ | | | |s|l|d]; try discriminate Hd;
    cbn [py_in getitem_str]; try discriminate.
  - destruct (str_in "completion" s); [discriminate|].
    destruct (str_in "output" s); [discriminate|].
    intros H. now injection H as <-.
  - destruct (existsb (is_str "completion") l); [discriminate|].
    destruct (existsb (is_str "output") l); [discriminate|].
    intros H. now injection H as <-.
Qed.

Lemma extract_completion_non_object_witness :
  JStr "No valid response found. Raw response: []"
  = JStr ("No valid response found. Raw response: "
          ++ json_dumps (answering (JList [])) (Some 2) (JList [])).
Proof.
  apply (extract_completion_non_object (answering (JList [])) (JList [])).
  - reflexivity.
  - reflexivity.
Defined.

(** ** The text sent to the service *)

Lemma all_printable_app (a b : string) :
  all_printable (a ++ b) = all_printable a && all_printable b.
Proof.
  induction a as [|c a IH]; simpl; [reflexivity|].
  now rewrite IH, andb_assoc.
Qed.

Lemma escape_char_printable (c : ascii) : all_printable (escape_char c) = true.
Proof. destruct c as [[] [] [] [] [] [] [] []]; reflexivity. Qed.

Lemma escape_str_printable (s : string) : all_printable (escape_str s) = true.
Proof.
  induction s as [|c s IH]; simpl; [reflexivity|].
  now rewrite all_printable_app, escape_char_printable, IH.
Qed.

Lemma encode_str_printable (s : string) : all_printable (encode_str s) = true.
Proof.
  unfold encode_str. cbn [all_printable].
  now rewrite all_printable_app, escape_str_printable.
Qed.

Lemma string_of_uint_printable (d : Decimal.uint) :
  all_printable (NilEmpty.string_of_uint d) = true.
Proof. induction d; simpl; auto. Qed.

Lemma string_of_int_printable (n : Z) :
  all_printable (NilZero.string_of_int (Z.to_int n)) = true.
Proof.
  assert (U : forall d, all_printable (NilZero.string_of_uint d) = true).
  { intros d. destruct d; try apply string_of_uint_printable. reflexivity. }
  destruct (Z.to_int n); simpl; [apply U|]. apply U.
Qed.

(** X8.  The body of the call is ASCII on one line, whatever the prompt
    holds (quotes, backslashes, line ends, characters outside ASCII), as
    long as the float 0.5 is printed so: [json.dumps] is called with its
    default [ensure_ascii] and no [indent]. *)
Theorem request_body_printable (lib : Library) (p : params) :
  all_printable (float_repr lib half) = true ->
  all_printable (body (request_of lib p)) = true.
Proof.
  intros Hf. unfold request_of, json_dumps. cbn [body].
  destruct (uses_messages_api (model_id p)).
  - unfold messages_request.
    cbn -[NilZero.string_of_int Z.to_int encode_str String.append].
    rewrite !all_printable_app, !encode_str_printable, string_of_int_printable.
    reflexivity.
  - unfold completion_request.
    cbn -[NilZero.string_of_int Z.to_int encode_str String.append].
    rewrite !all_printable_app, !encode_str_printable,
      string_of_int_printable, Hf.
    reflexivity.
Qed.

Lemma request_body_printable_witness :
  all_printable
    (body (request_of (answering JNull)
             (Params (String DQUOTE (String LF (String "233" "t")))
                     "anthropic.claude-v2" "us-west-2" 300))) = true.
Proof.
  apply (request_body_printable (answering JNull)).
  reflexivity.
Defined.












(** ** More on routing, errors and the run as a whole *)

Lemma contains_trans (x y s : string) :
  contains x y -> contains y s -> contains x s.
Proof.
  intros Hxy (pre & post & ->). now apply contains_embedded.
Qed.

(** X10.  The messages branch is taken only for identifiers that contain
    both "claude-3-" and "sonnet": every other identifier (other model
    families, other Claude 3 models) goes to the completion branch. *)
Theorem messages_routing_needs_sonnet (m : string) :
  uses_messages_api m = true ->
  contains "claude-3-" m /\ contains "sonnet" m.
Proof.
  rewrite uses_messages_api_iff. intros [H|H]; split;
    (eapply contains_trans; [|exact H]); apply str_in_contains; reflexivity.
Qed.

Lemma messages_routing_needs_sonnet_witness :
  contains "claude-3-" "anthropic.claude-3-5-sonnet-20240620-v1:0" /\
  contains "sonnet" "anthropic.claude-3-5-sonnet-20240620-v1:0".
Proof.
  apply (messages_routing_needs_sonnet "anthropic.claude-3-5-sonnet-20240620-v1:0").
  vm_compute. reflexivity.
Defined.

(** X11.  Whatever the answer, lines 119-125 raise nothing but [TypeError]:
    every field is tested with [in] before it is read, so no [KeyError]
    comes out of them. *)
Theorem extract_completion_only_type_errors
  (lib : Library) (response_body : json) (e : exn) :
  extract_completion lib response_body = inl e ->
  exn_cls e = TypeError.
Proof.
  unfold extract_completion, has_output_text.
  destruct response_body as [ | | | |s|l|d]; cbn [py_in getitem_str type_name];
    try (intros H; injection H as <-; reflexivity).
  - destruct (str_in "completion" s);
      [intros H; injection H as <-; reflexivity|].
    destruct (str_in "output" s);
      [intros H; injection H as <-; reflexivity | discriminate].
  - destruct (existsb (is_str "completion") l);
      [intros H; injection H as <-; reflexivity|].
    destruct (existsb (is_str "output") l);
      [intros H; injection H as <-; reflexivity | discriminate].
  - destruct (dict_lookup "completion" d); [discriminate|].
    destruct (dict_lookup "output" d) as [o|]; [|discriminate].
    destruct o as [ | | | |s|l|o]; cbn [py_in getitem_str type_name];
      try (intros H; injection H as <-; reflexivity).
    + destruct (str_in "text" s);
        [intros H; injection H as <-; reflexivity | discriminate].
    + destruct (existsb (is_str "text") l);
        [intros H; injection H as <-; reflexivity | discriminate].
    + destruct (dict_lookup "text" o); discriminate.
Qed.

Lemma extract_completion_only_type_errors_witness :
  exn_cls (Exn TypeError "list indices must be integers or slices, not str")
  = TypeError.
Proof.
  apply (extract_completion_only_type_errors (answering JNull)
           (JList [JStr "completion"])).
  reflexivity.
Defined.

(** X12.  When the client is built, the call returns, its answer parses
    and the extraction of the branch returns [text], the run ends in
    [exit_json] with [changed] false and [text] as [bedrock_response],
    after the one call; [text] is reported as it is, string or not. *)
Theorem run_reports_extracted_text
  (lib : Library) (p : params) (raw : string) (response_body text : json) :
  boto3_client lib (region p) = None ->
  invoke_model lib (region p) (request_of lib p) = inr raw ->
  json_loads lib raw = inr response_body ->
  extract_of lib p response_body = inr text ->
  run_module lib p false initial_state
  = (SysExit (ExitJson (Result false text)),
     State (Result false text) [(region p, request_of lib p)]).
Proof.
  intros Hc Hi Hl Hx. rewrite run_cases, Hc. cbv zeta.
  now rewrite Hi, Hl, Hx.
Qed.

Lemma run_reports_extracted_text_witness :
  run_module (answering (JDict [("completion", JNull)])) legacy_params
    false initial_state
  = (SysExit (ExitJson (Result false JNull)),
     State (Result false JNull)
       [("us-west-2",
         request_of (answering (JDict [("completion", JNull)])) legacy_params)]).
Proof.
  apply (run_reports_extracted_text
           (answering (JDict [("completion", JNull)])) legacy_params
           (encode repr_half None 0 (JDict [("completion", JNull)]))
           (JDict [("completion", JNull)]) JNull); reflexivity.
Defined.
